(** * talkit-backend-go: the HTTP facade of [main.go], embedded and verified

    The development follows [main.go] function by function.  The Go
    handlers are written in a small state-and-failure monad over the
    pieces of the world one request can touch: the [http.ResponseWriter],
    the Firestore document store and the list of store calls issued.

    Collaborators that live outside the repository (the Firebase app and
    auth client, the Firestore client, [encoding/json], [net/http],
    [time]) are modelled at their documented interface, one module each.
    What they may answer for reasons the program cannot see (missing
    credentials, network faults, a rejected token) is gathered in the
    record [Env], over which every theorem quantifies.

    Not modelled: log lines ([log.Printf] has no effect on the response),
    the deferred [Close] calls, and the headers that [net/http] itself
    adds when it sends a response (Date, Content-Length, sniffed
    Content-Type). *)

From Stdlib Require Import ZArith Ascii String List Bool Lia.
From stdpp Require Import base option gmap strings list fin_maps sorting.

Local Open Scope string_scope.
Local Open Scope list_scope.
Local Open Scope Z_scope.

Set Warnings "-register-all".

(** ** Values shared by documents and JSON output *)

(** A JSON number literal, [mantissa * 10^exponent].  The conversion to
    and from [float64] is not modelled: the number is carried as written. *)
Record Number := mkNumber { mantissa : Z; exponent : Z }.

#[global] Instance Number_eq_dec : EqDecision Number.
Proof. solve_decision. Defined.

(** The dynamic values ([interface{}]) that occur in this program's maps
    and documents: all of them are scalars. *)
Inductive Value :=
| VNull
| VBool (b : bool)
| VInt (n : Z)
| VFloat (x : Number)
| VString (s : string).

#[global] Instance Value_eq_dec : EqDecision Value.
Proof. solve_decision. Defined.

(** [map[string]interface{}] *)
Abbreviation GoMap := (gmap string Value).

(** ** encoding/json *)

Module json.

(** The text of a JSON value, after lexing.  Object members keep the
    order and the duplicates of the text. *)
Inductive JSON :=
| JNull
| JBool (b : bool)
| JNumber (x : Number)
| JString (s : string)
| JArray (l : list JSON)
| JObject (members : list (string * JSON)).

(** The bytes of a request body: the text of one JSON value, or bytes
    that are no JSON text at all (a syntax error for [Unmarshal]). *)
Inductive Bytes :=
| NotJSON (raw : string)
| Text (j : JSON).

Definition lower (c : ascii) : ascii :=
  let n := N_of_ascii c in
  if ((65 <=? n) && (n <=? 90))%N then ascii_of_N (n + 32) else c.

Fixpoint foldName (s : string) : string :=
  match s with
  | EmptyString => EmptyString
  | String c s' => String (lower c) (foldName s')
  end.

(** Go matches an object key to a struct field by name, ignoring case
    (ASCII letters; the two non-ASCII runes Go also folds onto [k] and
    [s] are outside the model). *)
Definition equalFold (field key : string) : bool :=
  String.eqb (foldName field) (foldName key).

(** Decoding into a [string] field: a JSON string is stored, [null]
    leaves the field as it is, anything else is an UnmarshalTypeError. *)
Definition intoString (old : string) (j : JSON) : option string :=
  match j with
  | JString s => Some s
  | JNull => Some old
  | _ => None
  end.

(** Decoding into a [float64] field. *)
Definition intoFloat64 (old : Number) (j : JSON) : option Number :=
  match j with
  | JNumber x => Some x
  | JNull => Some old
  | _ => None
  end.

End json.

(** ** The two request-body shapes of [main.go] *)

(** [UsersFieldsType]: the struct carries [firestore] tags only, so
    [encoding/json] addresses its fields by their Go names. *)
Record UsersFieldsType := mkUsersFields {
  ID : string;           (* firestore:"uid" *)
  Name : string;         (* firestore:"displayName" *)
  Price : Number;        (* firestore:"price" *)
  Type_ : string;        (* firestore:"type" *)
  Year : string;         (* firestore:"year" *)
  Image : string;        (* firestore:"image" *)
  Description : string;  (* firestore:"description" *)
  Slug : string          (* firestore:"slug" *)
}.

#[global] Instance UsersFieldsType_eq_dec : EqDecision UsersFieldsType.
Proof. solve_decision. Defined.

(** [DeleteType]: one field, tagged [json:"id"]. *)
Record DeleteType := mkDelete { delete_ID : string }.

(** The zero value a [var x UsersFieldsType] starts from. *)
Definition zeroUsersFields : UsersFieldsType :=
  mkUsersFields "" "" (mkNumber 0 0) "" "" "" "" "".

Definition zeroDelete : DeleteType := mkDelete "".

Module Unmarshal.
Import json.

(** One object member decoded into the struct: the member goes to the
    field whose name matches its key, members with an unknown key are
    skipped. *)
Definition memberUsers (u : UsersFieldsType) (key : string) (j : JSON)
  : option UsersFieldsType :=
  let '(mkUsersFields id name price type year image description slug) := u in
  if equalFold "ID" key then
    s ← intoString id j; Some (mkUsersFields s name price type year image description slug)
  else if equalFold "Name" key then
    s ← intoString name j; Some (mkUsersFields id s price type year image description slug)
  else if equalFold "Price" key then
    x ← intoFloat64 price j; Some (mkUsersFields id name x type year image description slug)
  else if equalFold "Type" key then
    s ← intoString type j; Some (mkUsersFields id name price s year image description slug)
  else if equalFold "Year" key then
    s ← intoString year j; Some (mkUsersFields id name price type s image description slug)
  else if equalFold "Image" key then
    s ← intoString image j; Some (mkUsersFields id name price type year s description slug)
  else if equalFold "Description" key then
    s ← intoString description j; Some (mkUsersFields id name price type year image s slug)
  else if equalFold "Slug" key then
    s ← intoString slug j; Some (mkUsersFields id name price type year image description s)
  else Some u.

Fixpoint membersUsers (u : UsersFieldsType) (ms : list (string * JSON))
  : option UsersFieldsType :=
  match ms with
  | [] => Some u
  | (key, j) :: ms' => u' ← memberUsers u key j; membersUsers u' ms'
  end.

(** [json.Unmarshal(body, &x)] for [x] a zero [UsersFieldsType];
    [None] is a non-nil error. *)
Definition Users (body : Bytes) : option UsersFieldsType :=
  match body with
  | NotJSON _ => None
  | Text JNull => Some zeroUsersFields
  | Text (JObject ms) => membersUsers zeroUsersFields ms
  | Text _ => None
  end.

Definition memberDelete (d : DeleteType) (key : string) (j : JSON)
  : option DeleteType :=
  if equalFold "id" key then
    s ← intoString (delete_ID d) j; Some (mkDelete s)
  else Some d.

Fixpoint membersDelete (d : DeleteType) (ms : list (string * JSON))
  : option DeleteType :=
  match ms with
  | [] => Some d
  | (key, j) :: ms' => d' ← memberDelete d key j; membersDelete d' ms'
  end.

(** [json.Unmarshal(body, &x)] for [x] a zero [DeleteType]. *)
Definition Delete (body : Bytes) : option DeleteType :=
  match body with
  | NotJSON _ => None
  | Text JNull => Some zeroDelete
  | Text (JObject ms) => membersDelete zeroDelete ms
  | Text _ => None
  end.

End Unmarshal.

(** ** net/http: status codes and the ResponseWriter *)

Module http.

Definition MethodGet := "GET".
Definition MethodPost := "POST".
Definition MethodPut := "PUT".
Definition MethodDelete := "DELETE".
Definition MethodOptions := "OPTIONS".

Definition StatusOK : Z := 200.
Definition StatusCreated : Z := 201.
Definition StatusNoContent : Z := 204.
Definition StatusNotModified : Z := 304.
Definition StatusBadRequest : Z := 400.
Definition StatusForbidden : Z := 403.
Definition StatusNotFound : Z := 404.
Definition StatusInternalServerError : Z := 500.

(** What a handler writes to the body: [json.NewEncoder(w).Encode(m)]
    writes the JSON object of the map [m] and a newline, [fmt.Fprintln]
    writes a line of text.  A Go map has no key order, and neither has
    the [gmap] that stands for the encoded object. *)
Inductive Chunk :=
| JSONLine (m : GoMap)
| Line (s : string).

(** [http.Header] is a [map[string][]string]. *)
Abbreviation Header := (gmap string (list string)).

(** The state of one response.  [status = None] until the header is
    written; [sent] is the copy of the header map taken at that moment,
    which is what goes on the wire. *)
Record ResponseWriter := mkResponse {
  handlerHeader : Header;
  status : option Z;
  sent : Header;
  body : list Chunk
}.

(** The writer the server hands to a handler. *)
Definition fresh : ResponseWriter := mkResponse ∅ None ∅ [].

Definition upper (c : ascii) : ascii :=
  let n := N_of_ascii c in
  if ((97 <=? n) && (n <=? 122))%N then ascii_of_N (n - 32) else c.

Definition validHeaderFieldByte (c : ascii) : bool :=
  let n := N_of_ascii c in
  ((48 <=? n) && (n <=? 57) || (65 <=? n) && (n <=? 90) || (97 <=? n) && (n <=? 122)
   || existsb (N.eqb n) [33; 35; 36; 37; 38; 39; 42; 43; 45; 46; 94; 95; 96; 124; 126])%N.

Fixpoint allValid (s : string) : bool :=
  match s with
  | EmptyString => true
  | String c s' => validHeaderFieldByte c && allValid s'
  end.

Fixpoint canonical (up : bool) (s : string) : string :=
  match s with
  | EmptyString => EmptyString
  | String c s' =>
      String (if up then upper c else json.lower c)
             (canonical (N.eqb (N_of_ascii c) 45) s')
  end.

(** [textproto.CanonicalMIMEHeaderKey]: first letter and letters after a
    hyphen in upper case, the rest in lower case; a key with a byte that
    is not allowed in a header name is left alone. *)
Definition CanonicalMIMEHeaderKey (s : string) : string :=
  if allValid s then canonical true s else s.

(** [w.Header().Set(key, value)] *)
Definition Header_Set (key value : string) (w : ResponseWriter) : ResponseWriter :=
  mkResponse (<[CanonicalMIMEHeaderKey key := [value]]> (handlerHeader w))
             (status w) (sent w) (body w).

(** [w.WriteHeader(code)]: the first call fixes the status and the
    headers; a later call is ignored (the server logs it as superfluous). *)
Definition WriteHeader (code : Z) (w : ResponseWriter) : ResponseWriter :=
  match status w with
  | Some _ => w
  | None => mkResponse (handlerHeader w) (Some code) (handlerHeader w) (body w)
  end.

Definition bodyAllowedForStatus (code : Z) : bool :=
  if (100 <=? code) && (code <=? 199) then false
  else if code =? StatusNoContent then false
  else if code =? StatusNotModified then false
  else true.

(** [w.Write(chunk)]: writes the header with status 200 when none was
    written, then appends to the body unless the status forbids one. *)
Definition Write_ (c : Chunk) (w : ResponseWriter) : ResponseWriter :=
  let w1 := WriteHeader StatusOK w in
  match status w1 with
  | Some code =>
      if bodyAllowedForStatus code
      then mkResponse (handlerHeader w1) (status w1) (sent w1) (body w1 ++ [c])
      else w1
  | None => w1
  end.

(** [http.Error(w, msg, code)] *)
Definition Error (msg : string) (code : Z) (w : ResponseWriter) : ResponseWriter :=
  Write_ (Line msg)
    (WriteHeader code
      (Header_Set "X-Content-Type-Options" "nosniff"
        (Header_Set "Content-Type" "text/plain; charset=utf-8" w))).

End http.

(** ** time *)

Module time.

(** An instant (Unix seconds) seen in a location with a fixed offset from
    UTC, in seconds east. *)
Record Time := mkTime { unix : Z; offset : Z }.

(** America/Buenos_Aires is three hours behind UTC all year. *)
Definition BuenosAires : Z := -3 * 3600.

(** [t.In(loc)] *)
Definition In (loc : Z) (t : Time) : Time := mkTime (unix t) loc.

(** [t.AddDate(0, 0, days)]: the same wall clock reading [days] calendar
    days later; with a fixed offset that is [days] times 86400 seconds. *)
Definition AddDate_0_0 (days : Z) (t : Time) : Time :=
  mkTime (unix t + days * 86400) (offset t).

(** Seconds shown by the wall clock of [t]'s location. *)
Definition wall (t : Time) : Z := unix t + offset t.

(** Proleptic Gregorian date of a day number counted from 1970-01-01. *)
Definition civil (z : Z) : Z * Z * Z :=
  let z := z + 719468 in
  let era := z / 146097 in
  let doe := z - era * 146097 in
  let yoe := (doe - doe / 1460 + doe / 36524 - doe / 146096) / 365 in
  let doy := doe - (365 * yoe + yoe / 4 - yoe / 100) in
  let mp := (5 * doy + 2) / 153 in
  let d := doy - (153 * mp + 2) / 5 + 1 in
  let m := if mp <? 10 then mp + 3 else mp - 9 in
  let y := yoe + era * 400 + (if m <=? 2 then 1 else 0) in
  (y, m, d).

Definition digit (n : Z) : string :=
  String (ascii_of_N (48 + Z.to_N (n mod 10))) EmptyString.

Definition pad2 (n : Z) : string := (digit (n / 10) ++ digit n)%string.
Definition pad4 (n : Z) : string := (pad2 (n / 100) ++ pad2 n)%string.

Definition dayName (n : Z) : string :=
  nth (Z.to_nat n) ["Sun"; "Mon"; "Tue"; "Wed"; "Thu"; "Fri"; "Sat"] "".

Definition monthName (n : Z) : string :=
  nth (Z.to_nat (n - 1))
      ["Jan"; "Feb"; "Mar"; "Apr"; "May"; "Jun";
       "Jul"; "Aug"; "Sep"; "Oct"; "Nov"; "Dec"] "".

(** [t.Format(http.TimeFormat)], layout ["Mon, 02 Jan 2006 15:04:05 GMT"]:
    the wall clock of [t]'s own location, followed by the letters GMT
    whatever that location is. *)
Definition Format_TimeFormat (t : Time) : string :=
  let days := wall t / 86400 in
  let secs := wall t mod 86400 in
  let '(y, m, d) := civil days in
  (dayName ((days + 4) mod 7) ++ ", " ++ pad2 d ++ " " ++ monthName m ++ " " ++ pad4 y
    ++ " " ++ pad2 (secs / 3600) ++ ":" ++ pad2 (secs / 60 mod 60) ++ ":" ++ pad2 (secs mod 60)
    ++ " GMT")%string.

End time.

(** ** json.Marshal of a map *)

Module Marshal.
Import json.

Definition ofValue (v : Value) : JSON :=
  match v with
  | VNull => JNull
  | VBool b => JBool b
  | VInt n => JNumber (mkNumber n 0)
  | VFloat x => JNumber x
  | VString s => JString s
  end.

Definition key_le (a b : string * JSON) : Prop := String.leb a.1 b.1 = true.

#[global] Instance key_le_dec a b : Decision (key_le a b).
Proof. unfold key_le. apply _. Defined.

(** [json.Marshal(m)] for a [map[string]interface{}]: one object, its
    members sorted by key. *)
Definition Map (m : GoMap) : Bytes :=
  Text (JObject (merge_sort key_le (prod_map id ofValue <$> map_to_list m))).

End Marshal.

(** ** cloud.google.com/go/firestore *)

Module firestore.

Abbreviation Doc := (gmap string Value).

(** The documents of one collection by document id, kept in the order of
    their ids (the order in which a query without [OrderBy] lists them). *)
Abbreviation Collection := (list (string * Doc)).

Abbreviation Store := (gmap string Collection).

(** What the handlers pass as the [data] argument of [Create] and [Set]. *)
Inductive Data :=
| Struct (u : UsersFieldsType)    (* [&newUsers], a pointer to a struct *)
| ByteSlice (b : json.Bytes).     (* [&jsonSuscription], a pointer to a []byte *)

(** The struct as a document, field names from the [firestore] tags. *)
Definition fields (u : UsersFieldsType) : Doc :=
  <["uid" := VString (ID u)]>
  (<["displayName" := VString (Name u)]>
  (<["price" := VFloat (Price u)]>
  (<["type" := VString (Type_ u)]>
  (<["year" := VString (Year u)]>
  (<["image" := VString (Image u)]>
  (<["description" := VString (Description u)]>
  (<["slug" := VString (Slug u)]> ∅))))))).

(** The client turns [data] into a document before it sends anything:
    "the data argument can be a map with string keys, a struct, or a
    pointer to a struct".  A byte slice becomes a bytes value, which is no
    map, and the call returns an error. *)
Definition toProtoDocument (data : Data) : option Doc :=
  match data with
  | Struct u => Some (fields u)
  | ByteSlice _ => None
  end.

Fixpoint get (id : string) (c : Collection) : option Doc :=
  match c with
  | [] => None
  | (k, d) :: c' => if String.eqb id k then Some d else get id c'
  end.

Fixpoint put (id : string) (d : Doc) (c : Collection) : Collection :=
  match c with
  | [] => [(id, d)]
  | (k, e) :: c' =>
      if String.eqb id k then (id, d) :: c'
      else if String.ltb id k then (id, d) :: c
      else (k, e) :: put id d c'
  end.

Fixpoint remove (id : string) (c : Collection) : Collection :=
  match c with
  | [] => []
  | (k, e) :: c' => if String.eqb id k then c' else (k, e) :: remove id c'
  end.

Definition collection (s : Store) (coll : string) : Collection :=
  default [] (s !! coll).

(** [Collection(coll).Doc(id).Create(ctx, data)]: fails when [data] is no
    document or a document with that id exists. *)
Definition create (coll id : string) (data : Data) (s : Store) : option Store :=
  d ← toProtoDocument data;
  match get id (collection s coll) with
  | Some _ => None
  | None => Some (<[coll := put id d (collection s coll)]> s)
  end.

(** [Collection(coll).Doc(id).Set(ctx, data)]: creates or overwrites. *)
Definition set (coll id : string) (data : Data) (s : Store) : option Store :=
  d ← toProtoDocument data;
  Some (<[coll := put id d (collection s coll)]> s).

(** [Collection(coll).Doc(id).Delete(ctx)]: no error when the document
    does not exist. *)
Definition delete (coll id : string) (s : Store) : Store :=
  match s !! coll with
  | None => s
  | Some c => <[coll := remove id c]> s
  end.

(** [Collection(coll).Where(field, "==", v)]: the documents whose field
    [field] holds [v], in id order. *)
Definition where_eq (coll field : string) (v : Value) (s : Store) : list Doc :=
  snd <$> filter (λ kd, kd.2 !! field = Some v) (collection s coll).

(** The calls a handler makes on the client. *)
Inductive Call :=
| Create (coll id : string) (data : Data)
| Set_ (coll id : string) (data : Data)
| Delete (coll id : string)
| Documents (coll field : string) (v : Value).

(** The calls that change the store: create, set, delete. *)
Definition mutation (c : Call) : bool :=
  match c with
  | Documents _ _ _ => false
  | _ => true
  end.

End firestore.

(** ** The request, the environment and the world *)

(** What the handlers read from [*http.Request]. *)
Record Request := mkRequest {
  Method : string;
  Authorization : string;        (* [r.Header.Get("Authorization")], empty when absent *)
  uid : string;                  (* [r.URL.Query().Get("uid")], empty when absent *)
  Body : option json.Bytes       (* [ioutil.ReadAll(r.Body)]; [None] is a read error *)
}.

(** Answers of the collaborators that the program cannot foresee. *)
Record Env := mkEnv {
  NewApp_fails : bool;                           (* [firebase.NewApp] returns an error *)
  Firestore_fails : bool;                        (* [app.Firestore] returns an error *)
  Auth_fails : bool;                             (* [app.Auth] returns an error *)
  VerifyIDToken : string → option string;        (* the decoded token, [None] is an error *)
  unavailable : firestore.Call → bool;           (* the store refuses the call: network,
                                                    permission, malformed document path *)
  Now : Z;                                       (* [time.Now()], Unix seconds *)
  tzdata : bool                                  (* the zone database can be read *)
}.

(** [time.LoadLocation(name)]; only the zone the program asks for is known. *)
Definition LoadLocation (env : Env) (name : string) : option Z :=
  if tzdata env && String.eqb name "America/Buenos_Aires"
  then Some time.BuenosAires else None.

Record World := mkWorld {
  resp : http.ResponseWriter;
  db : firestore.Store;
  calls : list firestore.Call
}.

(** The world at the start of a request. *)
Definition start (s : firestore.Store) : World := mkWorld http.fresh s [].

(** ** The monad of handler code *)

(** How a Go function ends: it returns, it panics, or the process exits
    ([log.Fatalf]). *)
Inductive Result (A : Type) :=
| Return (a : A)
| Panic
| Exit.
Arguments Return {A} a.
Arguments Panic {A}.
Arguments Exit {A}.

Definition Go (A : Type) : Type := World → Result A * World.

#[global] Instance Go_ret : MRet Go := λ A a σ, (Return a, σ).

#[global] Instance Go_bind : MBind Go := λ A B f m σ,
  match m σ with
  | (Return a, σ') => f a σ'
  | (Panic, σ') => (Panic, σ')
  | (Exit, σ') => (Exit, σ')
  end.

Definition panic {A} : Go A := λ σ, (Panic, σ).
Definition log_Fatalf {A} : Go A := λ σ, (Exit, σ).

Definition onWriter (f : http.ResponseWriter → http.ResponseWriter) : Go unit :=
  λ σ, (Return tt, mkWorld (f (resp σ)) (db σ) (calls σ)).

Definition Header_Set (key value : string) : Go unit := onWriter (http.Header_Set key value).
Definition WriteHeader (code : Z) : Go unit := onWriter (http.WriteHeader code).
Definition Encode (m : GoMap) : Go unit := onWriter (http.Write_ (http.JSONLine m)).
Definition http_Error (msg : string) (code : Z) : Go unit := onWriter (http.Error msg code).

(** A store call through the client: it is recorded, and it fails when the
    environment refuses it or the store does.  The result is [err != nil]. *)
Definition Doc_Create (env : Env) (coll id : string) (data : firestore.Data) : Go bool :=
  λ σ,
  let c := firestore.Create coll id data in
  let called := calls σ ++ [c] in
  if unavailable env c then (Return true, mkWorld (resp σ) (db σ) called)
  else match firestore.create coll id data (db σ) with
       | None => (Return true, mkWorld (resp σ) (db σ) called)
       | Some s => (Return false, mkWorld (resp σ) s called)
       end.

Definition Doc_Set (env : Env) (coll id : string) (data : firestore.Data) : Go bool :=
  λ σ,
  let c := firestore.Set_ coll id data in
  let called := calls σ ++ [c] in
  if unavailable env c then (Return true, mkWorld (resp σ) (db σ) called)
  else match firestore.set coll id data (db σ) with
       | None => (Return true, mkWorld (resp σ) (db σ) called)
       | Some s => (Return false, mkWorld (resp σ) s called)
       end.

Definition Doc_Delete (env : Env) (coll id : string) : Go bool :=
  λ σ,
  let c := firestore.Delete coll id in
  let called := calls σ ++ [c] in
  if unavailable env c then (Return true, mkWorld (resp σ) (db σ) called)
  else (Return false, mkWorld (resp σ) (firestore.delete coll id (db σ)) called).

(** [Collection(coll).Where(field, "==", v).Documents(ctx)]: the documents
    the iterator yields, and whether it then ends with an error instead of
    [iterator.Done]. *)
Definition Documents (env : Env) (coll field : string) (v : Value)
  : Go (list firestore.Doc * bool) :=
  λ σ,
  let c := firestore.Documents coll field v in
  let called := calls σ ++ [c] in
  if unavailable env c then (Return ([], true), mkWorld (resp σ) (db σ) called)
  else (Return (firestore.where_eq coll field v (db σ), false),
        mkWorld (resp σ) (db σ) called).

(** ** main.go *)

Record FirestoreValue := mkFirestoreValue {
  CreateTime : time.Time;
  fv_Name : string;
  UpdateTime : time.Time;
  Fields : UsersFieldsType
}.

Record FirestoreEvent := mkFirestoreEvent {
  OldValue : FirestoreValue;
  Value_ : FirestoreValue;
  UpdateMask : list string
}.

(** The body of the 403 answer. *)
Definition forbidden : GoMap :=
  <["error" := VString "FORBIDDEN"]>
  (<["statusCode" := VInt 403]>
  (<["data" := VNull]>
  (<["message" := VString "You are trying to access to this api with malformed or unhauthenticated user"]> ∅))).

(** The body of the 404 answer of the read handlers. *)
Definition not_found : GoMap :=
  <["error" := VString "NOT_FOUND"]>
  (<["statusCode" := VInt 404]>
  (<["data" := VNull]>
  (<["message" := VString "User uid not found"]> ∅))).

Definition authorizeRequest (env : Env) (r : Request) : Go unit :=
  if Auth_fails env then log_Fatalf
  else
    match VerifyIDToken env (Authorization r) with
    | None =>
        Header_Set "content-type" "application/json";;
        WriteHeader http.StatusForbidden;;
        Encode forbidden
    | Some token => mret tt
    end.

(** The subscription record that [HandleUserCreate] builds from the clock
    reading [t]. *)
Definition suscription (t : time.Time) : GoMap :=
  <["expired" := VBool false]>
  (<["suscriptionType" := VString "free-trial"]>
  (<["cost" := VInt 0]>
  (<["expireAt" := VString (time.Format_TimeFormat (time.AddDate_0_0 (7 * 12) t))]>
  (<["createdAt" := VString (time.Format_TimeFormat t)]> ∅)))).

(** [HandleUserCreate]; the result is the returned [error] being non-nil.
    The error of [LoadLocation] is dropped by the code, and [In] panics on
    the nil location it leaves. *)
Definition HandleUserCreate (env : Env) (e : FirestoreEvent) : Go bool :=
  let newFields := Fields (Value_ e) in
  match LoadLocation env "America/Buenos_Aires" with
  | None => panic
  | Some location =>
      let t := time.In location (time.mkTime (Now env) 0) in
      let jsonSuscription := Marshal.Map (suscription t) in
      err ← Doc_Create env "Suscriptions" (ID newFields) (firestore.ByteSlice jsonSuscription);
      if err : bool then
        WriteHeader http.StatusInternalServerError;;
        mret true
      else
        WriteHeader http.StatusCreated;;
        mret false
  end.

(** The [for] loop of the read handlers over the iterator: [None] when
    the handler has answered 500 and returned, else the slice [Users]. *)
Fixpoint iterate (docs : list firestore.Doc) (failed : bool) (Users : list GoMap)
  : Go (option (list GoMap)) :=
  match docs with
  | doc :: rest => iterate rest failed (Users ++ [doc])
  | [] =>
      if failed then
        WriteHeader http.StatusInternalServerError;;
        mret None
      else mret (Some Users)
  end.

Definition getUsers (env : Env) (r : Request) : Go unit :=
  let uid := uid r in
  iter ← Documents env "user" "uid" (VString uid);
  Users ← iterate iter.1 iter.2 [];
  match Users with
  | None => mret tt
  | Some (first :: _) => Encode first
  | Some [] =>
      Header_Set "content-type" "application/json";;
      WriteHeader http.StatusNotFound;;
      Encode not_found
  end.

Definition setUsers (env : Env) (r : Request) : Go unit :=
  match Body r with
  | None => panic
  | Some body =>
      match Unmarshal.Users body with
      | None => WriteHeader http.StatusBadRequest
      | Some newUsers =>
          err ← Doc_Create env "Users" (ID newUsers) (firestore.Struct newUsers);
          if err : bool then WriteHeader http.StatusInternalServerError
          else WriteHeader http.StatusCreated
      end
  end.

Definition deleteUsers (env : Env) (r : Request) : Go unit :=
  match Body r with
  | None => WriteHeader http.StatusBadRequest
  | Some body =>
      match Unmarshal.Delete body with
      | None => WriteHeader http.StatusBadRequest
      | Some Body =>
          err ← Doc_Delete env "Users" (delete_ID Body);
          if err : bool then WriteHeader http.StatusInternalServerError
          else WriteHeader http.StatusOK
      end
  end.

Definition updateUsers (env : Env) (r : Request) : Go unit :=
  match Body r with
  | None => WriteHeader http.StatusBadRequest
  | Some body =>
      match Unmarshal.Users body with
      | None => WriteHeader http.StatusBadRequest
      | Some Body =>
          err ← Doc_Set env "Users" (ID Body) (firestore.Struct Body);
          if err : bool then WriteHeader http.StatusInternalServerError
          else WriteHeader http.StatusOK
      end
  end.

Definition UsersAPI (env : Env) (r : Request) : Go unit :=
  if NewApp_fails env then WriteHeader http.StatusInternalServerError
  else if Firestore_fails env then WriteHeader http.StatusInternalServerError
  else if String.eqb (Method r) http.MethodOptions then
    Header_Set "Access-Control-Allow-Origin" "*";;
    Header_Set "Access-Control-Allow-Methods" "*";;
    Header_Set "Access-Control-Allow-Headers" "Content-Type";;
    Header_Set "Access-Control-Max-Age" "3600";;
    WriteHeader http.StatusNoContent
  else
    Header_Set "Access-Control-Allow-Origin" "*";;
    if String.eqb (Method r) http.MethodGet then getUsers env r
    else if String.eqb (Method r) http.MethodPost then
      authorizeRequest env r;; setUsers env r
    else if String.eqb (Method r) http.MethodDelete then
      authorizeRequest env r;; deleteUsers env r
    else if String.eqb (Method r) http.MethodPut then
      authorizeRequest env r;; updateUsers env r
    else http_Error "UNSUPPORTED METHOD" http.StatusNotFound.

Definition getSuscriptions (env : Env) (r : Request) : Go unit :=
  let uid := uid r in
  iter ← Documents env "user" "uid" (VString uid);
  Users ← iterate iter.1 iter.2 [];
  match Users with
  | None => mret tt
  | Some (first :: _) => Encode first
  | Some [] =>
      Header_Set "content-type" "application/json";;
      WriteHeader http.StatusNotFound;;
      Encode not_found
  end.

Definition setSuscriptions (env : Env) (r : Request) : Go unit :=
  match Body r with
  | None => panic
  | Some body =>
      match Unmarshal.Users body with
      | None => WriteHeader http.StatusBadRequest
      | Some newUsers =>
          err ← Doc_Create env "Suscriptions" (ID newUsers) (firestore.Struct newUsers);
          if err : bool then WriteHeader http.StatusInternalServerError
          else WriteHeader http.StatusCreated
      end
  end.

Definition deleteSuscriptions (env : Env) (r : Request) : Go unit :=
  match Body r with
  | None => WriteHeader http.StatusBadRequest
  | Some body =>
      match Unmarshal.Delete body with
      | None => WriteHeader http.StatusBadRequest
      | Some Body =>
          err ← Doc_Delete env "Suscriptions" (delete_ID Body);
          if err : bool then WriteHeader http.StatusInternalServerError
          else WriteHeader http.StatusOK
      end
  end.

Definition updateSuscriptions (env : Env) (r : Request) : Go unit :=
  match Body r with
  | None => WriteHeader http.StatusBadRequest
  | Some body =>
      match Unmarshal.Users body with
      | None => WriteHeader http.StatusBadRequest
      | Some Body =>
          err ← Doc_Set env "Suscriptions" (ID Body) (firestore.Struct Body);
          if err : bool then WriteHeader http.StatusInternalServerError
          else WriteHeader http.StatusOK
      end
  end.

Definition SuscriptionsAPI (env : Env) (r : Request) : Go unit :=
  if NewApp_fails env then WriteHeader http.StatusInternalServerError
  else if Firestore_fails env then WriteHeader http.StatusInternalServerError
  else if String.eqb (Method r) http.MethodOptions then
    Header_Set "Access-Control-Allow-Origin" "*";;
    Header_Set "Access-Control-Allow-Methods" "*";;
    Header_Set "Access-Control-Allow-Headers" "Content-Type";;
    Header_Set "Access-Control-Max-Age" "3600";;
    WriteHeader http.StatusNoContent
  else
    Header_Set "Access-Control-Allow-Origin" "*";;
    if String.eqb (Method r) http.MethodGet then getSuscriptions env r
    else if String.eqb (Method r) http.MethodPost then
      authorizeRequest env r;; setSuscriptions env r
    else if String.eqb (Method r) http.MethodDelete then
      authorizeRequest env r;; deleteSuscriptions env r
    else if String.eqb (Method r) http.MethodPut then
      authorizeRequest env r;; updateSuscriptions env r
    else http_Error "UNSUPPORTED METHOD" http.StatusNotFound.

(** [main]: the two routes of the mux router. *)
Definition router (path : string) : option (Env → Request → Go unit) :=
  if String.eqb path "/users" then Some UsersAPI
  else if String.eqb path "/suscriptions" then Some SuscriptionsAPI
  else None.

(** ** Vocabulary of the properties *)

(** The methods behind the authorization check. *)
Definition mutating (method : string) : Prop :=
  method = http.MethodPost ∨ method = http.MethodPut ∨ method = http.MethodDelete.


(** The app and the store client are obtained. *)
Definition initialised (env : Env) : Prop :=
  NewApp_fails env = false ∧ Firestore_fails env = false.

(** The Identity Verifier is reached and returns an error for the token of [r]. *)
Definition verifier_rejects (env : Env) (r : Request) : Prop :=
  initialised env ∧ Auth_fails env = false ∧ VerifyIDToken env (Authorization r) = None.

(** The Identity Verifier is reached and accepts the token of [r]. *)
Definition verifier_accepts (env : Env) (r : Request) : Prop :=
  initialised env ∧ Auth_fails env = false ∧ is_Some (VerifyIDToken env (Authorization r)).

(** The CORS headers of the preflight answer. *)
Definition preflight_headers : http.Header :=
  list_to_map
    [("Access-Control-Allow-Origin", ["*"]);
     ("Access-Control-Allow-Methods", ["*"]);
     ("Access-Control-Allow-Headers", ["Content-Type"]);
     ("Access-Control-Max-Age", ["3600"])].

(** The [switch] of the two dispatchers on the mutating methods: which
    handler runs after [authorizeRequest]. *)
Inductive dispatches : (Env → Request → Go unit) → string → (Env → Request → Go unit) → Prop :=
| dispatch_setUsers : dispatches UsersAPI http.MethodPost setUsers
| dispatch_deleteUsers : dispatches UsersAPI http.MethodDelete deleteUsers
| dispatch_updateUsers : dispatches UsersAPI http.MethodPut updateUsers
| dispatch_setSuscriptions : dispatches SuscriptionsAPI http.MethodPost setSuscriptions
| dispatch_deleteSuscriptions : dispatches SuscriptionsAPI http.MethodDelete deleteSuscriptions
| dispatch_updateSuscriptions : dispatches SuscriptionsAPI http.MethodPut updateSuscriptions.

(** ** Sample inputs *)

Module Sample.

(** An environment in which everything works and the verifier knows one token. *)
Definition env : Env :=
  mkEnv false false false
        (λ token, if String.eqb token "Bearer-ana" then Some "ana" else None)
        (λ _, false) 1709164800 true.

(** The same, but the Firestore client cannot be obtained. *)
Definition env_no_client : Env :=
  mkEnv false true false (VerifyIDToken env) (unavailable env) (Now env) true.

Definition profile : json.Bytes :=
  json.Text (json.JObject [("ID", json.JString "u1"); ("Name", json.JString "Ana")]).

Definition u1 : UsersFieldsType :=
  mkUsersFields "u1" "Ana" (mkNumber 0 0) "" "" "" "" "".

Definition post_valid : Request := mkRequest "POST" "Bearer-ana" "" (Some profile).
Definition post_no_token : Request := mkRequest "POST" "" "" (Some profile).
Definition post_unreadable : Request := mkRequest "POST" "Bearer-ana" "" None.
Definition get_u1 : Request := mkRequest "GET" "" "u1" None.
Definition options : Request := mkRequest "OPTIONS" "" "" None.

(** A store whose collection "user" holds one document with [uid] u1. *)
Definition one_user : firestore.Store :=
  {[ "user" := [("doc1", firestore.fields u1)] ]}.

Definition event : FirestoreEvent :=
  let zero := mkFirestoreValue (time.mkTime 0 0) "" (time.mkTime 0 0) zeroUsersFields in
  mkFirestoreEvent zero (mkFirestoreValue (time.mkTime 0 0) "" (time.mkTime 0 0) u1) [].

End Sample.

(** ** The three mutating handlers, with the collection as a parameter *)

(** [setUsers] and [setSuscriptions] differ in the collection they name
    and in nothing else; likewise the update and the delete handlers.
    These are the shared bodies. *)
Definition createIn (coll : string) (env : Env) (r : Request) : Go unit :=
  match Body r with
  | None => panic
  | Some body =>
      match Unmarshal.Users body with
      | None => WriteHeader http.StatusBadRequest
      | Some newUsers =>
          err ← Doc_Create env coll (ID newUsers) (firestore.Struct newUsers);
          if err : bool then WriteHeader http.StatusInternalServerError
          else WriteHeader http.StatusCreated
      end
  end.

Definition deleteIn (coll : string) (env : Env) (r : Request) : Go unit :=
  match Body r with
  | None => WriteHeader http.StatusBadRequest
  | Some body =>
      match Unmarshal.Delete body with
      | None => WriteHeader http.StatusBadRequest
      | Some Body =>
          err ← Doc_Delete env coll (delete_ID Body);
          if err : bool then WriteHeader http.StatusInternalServerError
          else WriteHeader http.StatusOK
      end
  end.

Definition updateIn (coll : string) (env : Env) (r : Request) : Go unit :=
  match Body r with
  | None => WriteHeader http.StatusBadRequest
  | Some body =>
      match Unmarshal.Users body with
      | None => WriteHeader http.StatusBadRequest
      | Some Body =>
          err ← Doc_Set env coll (ID Body) (firestore.Struct Body);
          if err : bool then WriteHeader http.StatusInternalServerError
          else WriteHeader http.StatusOK
      end
  end.

(** The handler a dispatcher runs for a mutating method, by collection. *)
Definition mutate (coll method : string) : Env → Request → Go unit :=
  if String.eqb method http.MethodPost then createIn coll
  else if String.eqb method http.MethodDelete then deleteIn coll
  else updateIn coll.

(** The two routes with the dispatcher and the collection each one writes. *)
Inductive serves : string → (Env → Request → Go unit) → string → Prop :=
| serves_users : serves "/users" UsersAPI "Users"
| serves_suscriptions : serves "/suscriptions" SuscriptionsAPI "Suscriptions".

(** The five methods the dispatchers know. *)
Definition supported (method : string) : bool :=
  String.eqb method http.MethodOptions || String.eqb method http.MethodGet
  || String.eqb method http.MethodPost || String.eqb method http.MethodDelete
  || String.eqb method http.MethodPut.

(** The headers of the answer to an unsupported method. *)
Definition unsupported_headers : http.Header :=
  list_to_map
    [("Access-Control-Allow-Origin", ["*"]);
     ("Content-Type", ["text/plain; charset=utf-8"]);
     ("X-Content-Type-Options", ["nosniff"])].

(** Two environments that differ at most in what the Identity Verifier
    answers. *)
Definition same_but_verifier (env env' : Env) : Prop :=
  NewApp_fails env = NewApp_fails env' ∧
  Firestore_fails env = Firestore_fails env' ∧
  Auth_fails env = Auth_fails env' ∧
  unavailable env = unavailable env' ∧
  Now env = Now env' ∧
  tzdata env = tzdata env'.

(** * Properties *)

(** ** The monad and the primitives *)

(** Unfolds the monad operations and the handler primitives; what is left
    is a term over the [http] and [firestore] functions. *)
Ltac go :=
  cbv [mbind mret Go_bind Go_ret onWriter WriteHeader Header_Set Encode http_Error
       panic log_Fatalf Doc_Create Doc_Set Doc_Delete Documents];
  cbn [fst snd resp db calls].

(** Case analysis on the next answer a handler inspects. *)
Ltac branch :=
  match goal with
  | |- context [match Body ?r with _ => _ end] => destruct (Body r)
  | |- context [match Unmarshal.Users ?b with _ => _ end] => destruct (Unmarshal.Users b)
  | |- context [match Unmarshal.Delete ?b with _ => _ end] => destruct (Unmarshal.Delete b)
  | |- context [if unavailable ?e ?c then _ else _] => destruct (unavailable e c)
  | |- context [match firestore.create ?c ?i ?d ?s with _ => _ end] =>
      destruct (firestore.create c i d s)
  | |- context [match firestore.set ?c ?i ?d ?s with _ => _ end] =>
      destruct (firestore.set c i d s)
  end.

Lemma World_eta σ : mkWorld (resp σ) (db σ) (calls σ) = σ.
Proof. by destruct σ. Qed.

Lemma WriteHeader_written code w c :
  http.status w = Some c → http.WriteHeader code w = w.
Proof. intros H. unfold http.WriteHeader. by rewrite H. Qed.

Lemma WriteHeader_status code w :
  http.status w = None → http.status (http.WriteHeader code w) = Some code.
Proof. intros H. unfold http.WriteHeader. by rewrite H. Qed.



(** ** The store *)

Lemma get_put id d c : firestore.get id (firestore.put id d c) = Some d.
Proof.
  induction c as [|[k e] c IH]; cbn.
  - by rewrite String.eqb_refl.
  - destruct (String.eqb id k) eqn:E; cbn.
    + by rewrite String.eqb_refl.
    + destruct (String.ltb id k); cbn.
      * by rewrite String.eqb_refl.
      * by rewrite E.
Qed.

Lemma collection_insert coll c (s : firestore.Store) :
  firestore.collection (<[coll := c]> s) coll = c.
Proof. unfold firestore.collection. by rewrite lookup_insert_eq. Qed.

Lemma collection_insert_ne coll coll' c (s : firestore.Store) :
  coll ≠ coll' → firestore.collection (<[coll := c]> s) coll' = firestore.collection s coll'.
Proof. intros H. unfold firestore.collection. by rewrite lookup_insert_ne. Qed.

Lemma where_eq_insert_ne coll coll' c field v (s : firestore.Store) :
  coll ≠ coll' →
  firestore.where_eq coll' field v (<[coll := c]> s) = firestore.where_eq coll' field v s.
Proof. intros H. unfold firestore.where_eq. by rewrite collection_insert_ne. Qed.

(** ** The handlers, step by step *)

Lemma authorizeRequest_rejected env r σ :
  Auth_fails env = false → VerifyIDToken env (Authorization r) = None →
  authorizeRequest env r σ =
    (Return tt,
     mkWorld (http.Write_ (http.JSONLine forbidden)
               (http.WriteHeader http.StatusForbidden
                 (http.Header_Set "content-type" "application/json" (resp σ))))
             (db σ) (calls σ)).
Proof. intros Ha Hv. unfold authorizeRequest. by rewrite Ha, Hv. Qed.

Lemma authorizeRequest_accepted env r σ :
  Auth_fails env = false → is_Some (VerifyIDToken env (Authorization r)) →
  authorizeRequest env r σ = (Return tt, σ).
Proof. intros Ha [tok Hv]. unfold authorizeRequest. by rewrite Ha, Hv. Qed.

Lemma setUsers_created env r σ b u :
  Body r = Some b → Unmarshal.Users b = Some u →
  unavailable env (firestore.Create "Users" (ID u) (firestore.Struct u)) = false →
  firestore.get (ID u) (firestore.collection (db σ) "Users") = None →
  setUsers env r σ =
    (Return tt,
     mkWorld (http.WriteHeader http.StatusCreated (resp σ))
             (<["Users" := firestore.put (ID u) (firestore.fields u)
                              (firestore.collection (db σ) "Users")]> (db σ))
             (calls σ ++ [firestore.Create "Users" (ID u) (firestore.Struct u)])).
Proof.
  intros Hb Hu Hav Hget. unfold setUsers. rewrite Hb, Hu. go.
  rewrite Hav. unfold firestore.create. cbn [firestore.toProtoDocument mbind option_bind].
  by rewrite Hget.
Qed.

Lemma iterate_run docs failed Users σ :
  iterate docs failed Users σ =
    (Return (if failed then None else Some (Users ++ docs)),
     mkWorld (if failed then http.WriteHeader http.StatusInternalServerError (resp σ)
              else resp σ) (db σ) (calls σ)).
Proof.
  revert Users. induction docs as [|d docs IH]; intros Users; cbn [iterate].
  - destruct failed; go; [done|]. by rewrite app_nil_r, World_eta.
  - rewrite IH. by rewrite <- app_assoc.
Qed.

(** The switch of a dispatcher on a mutating method. *)
Lemma dispatch_mutating path api method :
  router path = Some api → mutating method → ∃ h, dispatches api method h.
Proof.
  unfold router. intros Hr Hm.
  destruct (String.eqb path "/users"); [|destruct (String.eqb path "/suscriptions")];
    simplify_eq; destruct Hm as [-> | [-> | ->]]; eexists; constructor.
Qed.

Lemma dispatches_run api h env r σ :
  dispatches api (Method r) h → initialised env →
  api env r σ =
    (Header_Set "Access-Control-Allow-Origin" "*";; authorizeRequest env r;; h env r) σ.
Proof.
  intros Hd [Hn Hf]. remember (Method r) as method eqn:Hm.
  destruct Hd; first [progress unfold UsersAPI | progress unfold SuscriptionsAPI];
    rewrite Hn, Hf, <- Hm; reflexivity.
Qed.

(** A handler of a mutating method touches the writer through
    [WriteHeader] only: once a header is written it leaves the response
    as it is. *)
Lemma handler_keeps_written api method h env r σ c :
  dispatches api method h → http.status (resp σ) = Some c →
  resp (h env r σ).2 = resp σ.
Proof.
  intros Hd Hc.
  destruct Hd;
    first [progress unfold setUsers | progress unfold deleteUsers
          | progress unfold updateUsers | progress unfold setSuscriptions
          | progress unfold deleteSuscriptions | progress unfold updateSuscriptions];
    repeat (go; branch); go; eauto using WriteHeader_written.
Qed.

Lemma bind_Return {A B} (m : Go A) (f : A → Go B) σ a σ' :
  m σ = (Return a, σ') → (m ≫= f) σ = f a σ'.
Proof. intros H. unfold mbind, Go_bind. by rewrite H. Qed.

Lemma api_not_initialised path api env r σ :
  router path = Some api → ¬ initialised env →
  api env r σ = WriteHeader http.StatusInternalServerError σ.
Proof.
  unfold router, initialised. intros Hr Hi.
  destruct (String.eqb path "/users"); [|destruct (String.eqb path "/suscriptions")];
    simplify_eq;
    first [progress unfold UsersAPI | progress unfold SuscriptionsAPI];
    destruct (NewApp_fails env); [done| |done|]; destruct (Firestore_fails env);
    done || by destruct Hi.
Qed.

Lemma authorizeRequest_store env r σ :
  db (authorizeRequest env r σ).2 = db σ ∧ calls (authorizeRequest env r σ).2 = calls σ.
Proof.
  unfold authorizeRequest. destruct (Auth_fails env); [done|].
  by destruct (VerifyIDToken env (Authorization r)).
Qed.


Lemma handler_unreadable api h env r σ :
  dispatches api (Method r) h → Body r = None →
  h env r σ =
    if String.eqb (Method r) http.MethodPost then (Panic, σ)
    else (Return tt, mkWorld (http.WriteHeader http.StatusBadRequest (resp σ)) (db σ) (calls σ)).
Proof.
  intros Hd Hb. remember (Method r) as method eqn:Hm.
  destruct Hd;
    first [progress unfold setUsers | progress unfold deleteUsers
          | progress unfold updateUsers | progress unfold setSuscriptions
          | progress unfold deleteSuscriptions | progress unfold updateSuscriptions];
    by rewrite Hb.
Qed.

(** ** The claims *)

(** C7.  On every request on which the Identity Verifier is reached and
    returns an error (a POST, PUT or DELETE to either endpoint), the
    response carries status 403 and its body is exactly the FORBIDDEN
    object: it is the first thing written, and whatever the handler that
    runs next does, nothing is added to it. *)
Theorem rejected_token_403_forbidden_body path api env r s :
  router path = Some api → mutating (Method r) → verifier_rejects env r →
  let out := api env r (start s) in
  http.status (resp out.2) = Some 403 ∧
  http.body (resp out.2) =
    [http.JSONLine
       (list_to_map
          [("error", VString "FORBIDDEN"); ("statusCode", VInt 403); ("data", VNull);
           ("message",
            VString "You are trying to access to this api with malformed or unhauthenticated user")])].
Proof.
  intros Hr Hm (Hi & Ha & Hv) out. subst out.
  destruct (dispatch_mutating _ _ _ Hr Hm) as [h Hd].
  rewrite (dispatches_run _ _ _ _ _ Hd Hi).
  erewrite bind_Return by reflexivity.
  erewrite bind_Return by (by apply authorizeRequest_rejected).
  erewrite handler_keeps_written by (exact Hd || (vm_compute; reflexivity)).
  split; vm_compute; reflexivity.
Qed.

Lemma rejected_token_403_forbidden_body_witness :
  let out := UsersAPI Sample.env Sample.post_no_token (start ∅) in
  http.status (resp out.2) = Some 403 ∧
  http.body (resp out.2) =
    [http.JSONLine
       (list_to_map
          [("error", VString "FORBIDDEN"); ("statusCode", VInt 403); ("data", VNull);
           ("message",
            VString "You are trying to access to this api with malformed or unhauthenticated user")])].
Proof.
  apply (rejected_token_403_forbidden_body "/users" UsersAPI Sample.env Sample.post_no_token ∅).
  - reflexivity.
  - left. reflexivity.
  - repeat split; reflexivity.
Defined.

(** The whole outcome of a preflight request. *)
Lemma preflight_run path api env r s :
  router path = Some api → Method r = http.MethodOptions → initialised env →
  api env r (start s) =
    (Return tt,
     mkWorld (http.mkResponse preflight_headers (Some http.StatusNoContent) preflight_headers [])
             s []).
Proof.
  intros Hr Hm [Hn Hf]. unfold router in Hr.
  destruct (String.eqb path "/users"); [|destruct (String.eqb path "/suscriptions")];
    simplify_eq;
    first [progress unfold UsersAPI | progress unfold SuscriptionsAPI];
    rewrite Hn, Hf, Hm; vm_compute; reflexivity.
Qed.

(** C8, as stated, fails: the dispatcher obtains the app and the store
    client before it looks at the method, and answers 500 when it cannot.
    An OPTIONS request in an environment without a Firestore client gets
    500 and no CORS header. *)
Lemma preflight_without_client_500 :
  let out := UsersAPI Sample.env_no_client Sample.options (start ∅) in
  Method Sample.options = http.MethodOptions ∧
  http.status (resp out.2) = Some 500 ∧
  http.status (resp out.2) ≠ Some 204 ∧
  http.sent (resp out.2) = ∅.
Proof. vm_compute. repeat split. intros H. discriminate H. Qed.

(** C8, amended.  For every OPTIONS request to either endpoint for which
    the app and the store client are obtained, the handler returns with
    status 204, an empty body, no store call and an unchanged store, and
    the headers sent are exactly Access-Control-Allow-Origin: *,
    Access-Control-Allow-Methods: *, Access-Control-Allow-Headers:
    Content-Type and Access-Control-Max-Age: 3600. *)
Theorem preflight_204_cors path api env r s :
  router path = Some api → Method r = http.MethodOptions → initialised env →
  let out := api env r (start s) in
  out.1 = Return tt ∧
  http.status (resp out.2) = Some 204 ∧
  http.body (resp out.2) = [] ∧
  http.sent (resp out.2) = preflight_headers ∧
  calls out.2 = [] ∧
  db out.2 = s.
Proof.
  intros Hr Hm Hi out. subst out. rewrite (preflight_run _ _ _ _ s Hr Hm Hi).
  cbn [fst snd resp db calls http.status http.body http.sent].
  repeat apply conj; reflexivity.
Qed.

Lemma preflight_204_cors_witness :
  let out := SuscriptionsAPI Sample.env Sample.options (start Sample.one_user) in
  out.1 = Return tt ∧
  http.status (resp out.2) = Some 204 ∧
  http.body (resp out.2) = [] ∧
  http.sent (resp out.2) = preflight_headers ∧
  calls out.2 = [] ∧
  db out.2 = Sample.one_user.
Proof.
  apply (preflight_204_cors "/suscriptions" SuscriptionsAPI Sample.env Sample.options
                            Sample.one_user).
  - reflexivity.
  - reflexivity.
  - split; reflexivity.
Defined.

(** C9.  On the same request and the same world the read handler of
    /suscriptions and the read handler of /users do the same: they return
    the same result and leave the same response, and the one store call
    they make is the query of collection "user" on field "uid"; no call
    names the collection "Suscriptions". *)
Theorem getSuscriptions_is_getUsers env r σ :
  getSuscriptions env r σ = getUsers env r σ ∧
  calls (getUsers env r σ).2 =
    calls σ ++ [firestore.Documents "user" "uid" (VString (uid r))] ∧
  db (getUsers env r σ).2 = db σ.
Proof.
  split; [reflexivity|].
  unfold getUsers.
  cbv [mbind Go_bind Documents]. destruct (unavailable env _); cbn [fst snd];
    rewrite iterate_run; cbn [app]; [done|].
  by destruct (firestore.where_eq _ _ _ _).
Qed.

(** C10.  When the body of the request cannot be read, the two create
    handlers panic and leave the response, the store and the call list as
    they found them; the update and delete handlers of both resources
    return after [WriteHeader(400)], so that a response on which no header
    was written yet gets status 400, and make no store call either. *)
Theorem unreadable_body_panics_create_400_others env r σ :
  Body r = None →
  setUsers env r σ = (Panic, σ) ∧
  setSuscriptions env r σ = (Panic, σ) ∧
  ∀ h, h ∈ [updateUsers; deleteUsers; updateSuscriptions; deleteSuscriptions] →
    h env r σ =
      (Return tt, mkWorld (http.WriteHeader 400 (resp σ)) (db σ) (calls σ)) ∧
    (http.status (resp σ) = None → http.status (resp (h env r σ).2) = Some 400).
Proof.
  intros Hb. unfold setUsers, setSuscriptions. rewrite Hb. do 2 (split; [reflexivity|]).
  intros h Hh.
  assert (h env r σ =
    (Return tt, mkWorld (http.WriteHeader 400 (resp σ)) (db σ) (calls σ))) as ->.
  { repeat (apply elem_of_cons in Hh as [->|Hh]);
      [unfold updateUsers | unfold deleteUsers
      | unfold updateSuscriptions | unfold deleteSuscriptions | by apply elem_of_nil in Hh];
      by rewrite Hb. }
  split; [reflexivity|]. apply WriteHeader_status.
Qed.

Lemma unreadable_body_panics_create_400_others_witness :
  setUsers Sample.env Sample.post_unreadable (start ∅) = (Panic, start ∅) ∧
  setSuscriptions Sample.env Sample.post_unreadable (start ∅) = (Panic, start ∅) ∧
  ∀ h, h ∈ [updateUsers; deleteUsers; updateSuscriptions; deleteSuscriptions] →
    h Sample.env Sample.post_unreadable (start ∅) =
      (Return tt, mkWorld (http.WriteHeader 400 http.fresh) ∅ []) ∧
    (http.status http.fresh = None →
     http.status (resp (h Sample.env Sample.post_unreadable (start ∅)).2) = Some 400).
Proof.
  apply (unreadable_body_panics_create_400_others Sample.env Sample.post_unreadable (start ∅)).
  reflexivity.
Defined.




(** What a GET does to the response when the query runs to its end. *)
Lemma api_GET path api env r s :
  router path = Some api → Method r = http.MethodGet → initialised env →
  unavailable env (firestore.Documents "user" "uid" (VString (uid r))) = false →
  let out := api env r (start s) in
  match firestore.where_eq "user" "uid" (VString (uid r)) s with
  | [] =>
      http.status (resp out.2) = Some 404 ∧
      http.body (resp out.2) = [http.JSONLine not_found]
  | first :: _ =>
      http.status (resp out.2) = Some 200 ∧
      http.body (resp out.2) = [http.JSONLine first]
  end.
Proof.
  intros Hr Hm [Hn Hf] Hav out. subst out. unfold router in Hr.
  destruct (String.eqb path "/users"); [|destruct (String.eqb path "/suscriptions")];
    simplify_eq;
    first [progress unfold UsersAPI, getUsers | progress unfold SuscriptionsAPI, getSuscriptions];
    rewrite Hn, Hf, Hm;
    change (String.eqb http.MethodGet http.MethodOptions) with false;
    change (String.eqb http.MethodGet http.MethodGet) with true; cbv iota;
    cbv [mbind Go_bind Documents Header_Set onWriter]; cbn [fst snd calls resp db start];
    rewrite Hav; cbn [fst snd]; rewrite iterate_run; cbn [app];
    destruct (firestore.where_eq _ _ _ s); cbn [fst snd resp];
    (split; [vm_compute; reflexivity|reflexivity]).
Qed.

Lemma not_found_literal :
  not_found =
    list_to_map
      [("error", VString "NOT_FOUND"); ("statusCode", VInt 404); ("data", VNull);
       ("message", VString "User uid not found")].
Proof. vm_compute. reflexivity. Qed.

(** C6.  For every GET request to either endpoint on which the query of
    the store runs to its end: when it yields no document the response is
    404 with the NOT_FOUND object as its body, and when it yields one or
    more documents the response is 200 with the first of them as its
    body. *)
Theorem read_not_found_or_first_match path api env r s :
  router path = Some api → Method r = http.MethodGet → initialised env →
  unavailable env (firestore.Documents "user" "uid" (VString (uid r))) = false →
  let out := api env r (start s) in
  match firestore.where_eq "user" "uid" (VString (uid r)) s with
  | [] =>
      http.status (resp out.2) = Some 404 ∧
      http.body (resp out.2) =
        [http.JSONLine
           (list_to_map
              [("error", VString "NOT_FOUND"); ("statusCode", VInt 404); ("data", VNull);
               ("message", VString "User uid not found")])]
  | first :: _ =>
      http.status (resp out.2) = Some 200 ∧
      http.body (resp out.2) = [http.JSONLine first]
  end.
Proof.
  intros Hr Hm Hi Hav out. rewrite <- not_found_literal.
  exact (api_GET path api env r s Hr Hm Hi Hav).
Qed.

Lemma read_not_found_or_first_match_witness :
  let out := UsersAPI Sample.env Sample.get_u1 (start Sample.one_user) in
  http.status (resp out.2) = Some 200 ∧
  http.body (resp out.2) = [http.JSONLine (firestore.fields Sample.u1)].
Proof.
  apply (read_not_found_or_first_match "/users" UsersAPI Sample.env Sample.get_u1
           Sample.one_user).
  - reflexivity.
  - reflexivity.
  - split; reflexivity.
  - reflexivity.
Defined.

Lemma collection_empty coll : firestore.collection ∅ coll = [].
Proof. unfold firestore.collection. by rewrite lookup_empty. Qed.

(** What a POST to /users does to the world when the profile can be
    created: after the authorization step, whatever its outcome was, the
    create handler stores the profile. *)
Lemma UsersAPI_POST_created env r s b u :
  initialised env → Auth_fails env = false →
  Method r = http.MethodPost → Body r = Some b → Unmarshal.Users b = Some u →
  unavailable env (firestore.Create "Users" (ID u) (firestore.Struct u)) = false →
  firestore.get (ID u) (firestore.collection s "Users") = None →
  let out := UsersAPI env r (start s) in
  out.1 = Return tt ∧
  http.status (resp out.2) =
    Some (match VerifyIDToken env (Authorization r) with Some _ => 201 | None => 403 end) ∧
  calls out.2 = [firestore.Create "Users" (ID u) (firestore.Struct u)] ∧
  db out.2 =
    <["Users" := firestore.put (ID u) (firestore.fields u) (firestore.collection s "Users")]> s.
Proof.
  intros Hi Ha Hm Hb Hu Hav Hget out. subst out.
  assert (dispatches UsersAPI (Method r) setUsers) as Hd by (rewrite Hm; constructor).
  rewrite (dispatches_run _ _ _ _ _ Hd Hi).
  cbv [mbind Go_bind Header_Set onWriter]. cbn [start resp db calls].
  unfold authorizeRequest. rewrite Ha.
  destruct (VerifyIDToken env (Authorization r)) as [token|].
  - cbv [mret Go_ret]. rewrite (setUsers_created _ _ _ _ _ Hb Hu Hav) by done.
    cbn [fst snd resp db calls].
    split; [reflexivity|]. split; [vm_compute; reflexivity|]. split; reflexivity.
  - go. rewrite (setUsers_created _ _ _ _ _ Hb Hu Hav) by done.
    cbn [fst snd resp db calls].
    split; [reflexivity|]. split; [vm_compute; reflexivity|]. split; reflexivity.
Qed.

(** C1 (the code departs from it).  A POST to /users whose token the
    Identity Verifier rejects is answered 403, and the profile of its body
    is created in the store all the same: [authorizeRequest] writes the
    answer and returns, and the dispatcher goes on to [setUsers]. *)
Theorem rejected_token_still_creates env r s b u :
  verifier_rejects env r →
  Method r = http.MethodPost → Body r = Some b → Unmarshal.Users b = Some u →
  unavailable env (firestore.Create "Users" (ID u) (firestore.Struct u)) = false →
  firestore.get (ID u) (firestore.collection s "Users") = None →
  let out := UsersAPI env r (start s) in
  http.status (resp out.2) = Some 403 ∧
  calls out.2 = [firestore.Create "Users" (ID u) (firestore.Struct u)] ∧
  firestore.mutation (firestore.Create "Users" (ID u) (firestore.Struct u)) = true ∧
  firestore.get (ID u) (firestore.collection (db out.2) "Users") = Some (firestore.fields u).
Proof.
  intros (Hi & Ha & Hv) Hm Hb Hu Hav Hget out.
  destruct (UsersAPI_POST_created env r s b u Hi Ha Hm Hb Hu Hav Hget) as (_ & Hst & Hc & Hdb).
  subst out. rewrite Hv in Hst. rewrite Hdb, collection_insert, get_put. done.
Qed.

Lemma rejected_token_still_creates_witness :
  let out := UsersAPI Sample.env Sample.post_no_token (start ∅) in
  http.status (resp out.2) = Some 403 ∧
  calls out.2 = [firestore.Create "Users" (ID Sample.u1) (firestore.Struct Sample.u1)] ∧
  firestore.mutation (firestore.Create "Users" (ID Sample.u1) (firestore.Struct Sample.u1)) = true ∧
  firestore.get (ID Sample.u1) (firestore.collection (db out.2) "Users")
    = Some (firestore.fields Sample.u1).
Proof.
  apply (rejected_token_still_creates Sample.env Sample.post_no_token ∅
           Sample.profile Sample.u1).
  - repeat split; vm_compute; reflexivity.
  - vm_compute; reflexivity.
  - vm_compute; reflexivity.
  - vm_compute; reflexivity.
  - vm_compute; reflexivity.
  - vm_compute; reflexivity.
Defined.

(** C2 (the code departs from it).  A successful profile creation, a POST
    to /users answered 201, makes one store call, the creation of the
    profile in "Users"; the collection "Suscriptions" is left as it was,
    so no companion document appears: [setUsers] never runs
    [HandleUserCreate]. *)
Theorem profile_creation_provisions_nothing env r s b u :
  verifier_accepts env r →
  Method r = http.MethodPost → Body r = Some b → Unmarshal.Users b = Some u →
  unavailable env (firestore.Create "Users" (ID u) (firestore.Struct u)) = false →
  firestore.get (ID u) (firestore.collection s "Users") = None →
  let out := UsersAPI env r (start s) in
  http.status (resp out.2) = Some 201 ∧
  calls out.2 = [firestore.Create "Users" (ID u) (firestore.Struct u)] ∧
  firestore.collection (db out.2) "Suscriptions" = firestore.collection s "Suscriptions".
Proof.
  intros (Hi & Ha & [token Hv]) Hm Hb Hu Hav Hget out.
  destruct (UsersAPI_POST_created env r s b u Hi Ha Hm Hb Hu Hav Hget) as (_ & Hst & Hc & Hdb).
  subst out. rewrite Hv in Hst. rewrite Hdb, collection_insert_ne; done.
Qed.

Lemma profile_creation_provisions_nothing_witness :
  let out := UsersAPI Sample.env Sample.post_valid (start ∅) in
  http.status (resp out.2) = Some 201 ∧
  calls out.2 = [firestore.Create "Users" (ID Sample.u1) (firestore.Struct Sample.u1)] ∧
  firestore.collection (db out.2) "Suscriptions" = firestore.collection ∅ "Suscriptions".
Proof.
  apply (profile_creation_provisions_nothing Sample.env Sample.post_valid ∅
           Sample.profile Sample.u1).
  - repeat split; try (vm_compute; reflexivity). eexists. vm_compute. reflexivity.
  - vm_compute; reflexivity.
  - vm_compute; reflexivity.
  - vm_compute; reflexivity.
  - vm_compute; reflexivity.
  - vm_compute; reflexivity.
Defined.

(** C3 (the code departs from it).  On a store that was empty, a
    successful profile creation followed by a GET of /users with the uid
    just written is answered 404 NOT_FOUND: the profile went to the
    collection "Users" and the read handler queries the collection "user". *)
Theorem created_profile_not_found_by_read env r b u env' r' :
  verifier_accepts env r →
  Method r = http.MethodPost → Body r = Some b → Unmarshal.Users b = Some u →
  unavailable env (firestore.Create "Users" (ID u) (firestore.Struct u)) = false →
  initialised env' → Method r' = http.MethodGet → uid r' = ID u →
  unavailable env' (firestore.Documents "user" "uid" (VString (uid r'))) = false →
  let created := UsersAPI env r (start ∅) in
  let read := UsersAPI env' r' (start (db created.2)) in
  http.status (resp created.2) = Some 201 ∧
  firestore.get (ID u) (firestore.collection (db created.2) "Users")
    = Some (firestore.fields u) ∧
  http.status (resp read.2) = Some 404 ∧
  http.body (resp read.2) = [http.JSONLine not_found].
Proof.
  intros (Hi & Ha & [token Hv]) Hm Hb Hu Hav Hi' Hm' Huid Hav' created read.
  assert (firestore.get (ID u) (firestore.collection ∅ "Users") = None) as Hget
    by (by rewrite collection_empty).
  destruct (UsersAPI_POST_created env r ∅ b u Hi Ha Hm Hb Hu Hav Hget)
    as (_ & Hst & _ & Hdb).
  fold created in Hst, Hdb. rewrite Hv in Hst.
  split; [done|]. split; [by rewrite Hdb, collection_insert, get_put|].
  assert (firestore.where_eq "user" "uid" (VString (uid r')) (db created.2) = []) as Hw.
  { rewrite Hdb, where_eq_insert_ne by done.
    unfold firestore.where_eq. by rewrite collection_empty. }
  pose proof (api_GET "/users" UsersAPI env' r' (db created.2)
                eq_refl Hm' Hi' Hav') as Hread.
  cbv zeta in Hread. rewrite Hw in Hread. exact Hread.
Qed.

Lemma created_profile_not_found_by_read_witness :
  let created := UsersAPI Sample.env Sample.post_valid (start ∅) in
  let read := UsersAPI Sample.env Sample.get_u1 (start (db created.2)) in
  http.status (resp created.2) = Some 201 ∧
  firestore.get (ID Sample.u1) (firestore.collection (db created.2) "Users")
    = Some (firestore.fields Sample.u1) ∧
  http.status (resp read.2) = Some 404 ∧
  http.body (resp read.2) = [http.JSONLine not_found].
Proof.
  apply (created_profile_not_found_by_read Sample.env Sample.post_valid
           Sample.profile Sample.u1 Sample.env Sample.get_u1).
  - repeat split; try (vm_compute; reflexivity). eexists. vm_compute. reflexivity.
  - vm_compute; reflexivity.
  - vm_compute; reflexivity.
  - vm_compute; reflexivity.
  - vm_compute; reflexivity.
  - split; vm_compute; reflexivity.
  - vm_compute; reflexivity.
  - vm_compute; reflexivity.
  - vm_compute; reflexivity.
Defined.

(** C4 (the code departs from it).  [HandleUserCreate] reads the clock
    once, in America/Buenos_Aires, and builds the record with that instant
    as createdAt, the instant 84 days later as expireAt, suscriptionType
    "free-trial", cost 0 and expired false; it then asks for a document
    "Suscriptions"/id to be created from the JSON bytes of the record.  A
    byte slice is no document, so the call fails: the handler answers 500,
    returns the error, and the store is unchanged. *)
Theorem HandleUserCreate_never_persists env e σ :
  tzdata env = true →
  let t := time.mkTime (Now env) time.BuenosAires in
  let record : GoMap :=
    list_to_map
      [("expired", VBool false); ("suscriptionType", VString "free-trial");
       ("cost", VInt 0);
       ("expireAt",
        VString (time.Format_TimeFormat (time.mkTime (Now env + 84 * 86400) time.BuenosAires)));
       ("createdAt", VString (time.Format_TimeFormat t))] in
  HandleUserCreate env e σ =
    (Return true,
     mkWorld (http.WriteHeader 500 (resp σ)) (db σ)
             (calls σ ++ [firestore.Create "Suscriptions" (ID (Fields (Value_ e)))
                            (firestore.ByteSlice (Marshal.Map record))])).
Proof.
  intros Htz t record. unfold HandleUserCreate, LoadLocation. rewrite Htz.
  change (String.eqb "America/Buenos_Aires" "America/Buenos_Aires") with true.
  cbn [andb]. go. unfold firestore.create. cbn [firestore.toProtoDocument mbind option_bind].
  by destruct (unavailable env _).
Qed.

Lemma HandleUserCreate_never_persists_witness :
  let env := Sample.env in
  let t := time.mkTime (Now env) time.BuenosAires in
  let record : GoMap :=
    list_to_map
      [("expired", VBool false); ("suscriptionType", VString "free-trial");
       ("cost", VInt 0);
       ("expireAt",
        VString (time.Format_TimeFormat (time.mkTime (Now env + 84 * 86400) time.BuenosAires)));
       ("createdAt", VString (time.Format_TimeFormat t))] in
  HandleUserCreate env Sample.event (start ∅) =
    (Return true,
     mkWorld (http.WriteHeader 500 (resp (start ∅))) (db (start ∅))
             (calls (start ∅) ++ [firestore.Create "Suscriptions" (ID (Fields (Value_ Sample.event)))
                            (firestore.ByteSlice (Marshal.Map record))])).
Proof.
  exact (HandleUserCreate_never_persists Sample.env Sample.event (start ∅) eq_refl).
Defined.

(** * Further properties of the dispatchers and the handlers *)

(** X1.  The create, update and delete handlers of /suscriptions are
    those of /users with the collection "Suscriptions" in the place of
    "Users": each pair is one shared body taken at two collection names. *)
Theorem handlers_generic :
  setUsers = createIn "Users" ∧ deleteUsers = deleteIn "Users" ∧
  updateUsers = updateIn "Users" ∧ setSuscriptions = createIn "Suscriptions" ∧
  deleteSuscriptions = deleteIn "Suscriptions" ∧
  updateSuscriptions = updateIn "Suscriptions".
Proof. repeat apply conj; reflexivity. Qed.

Lemma serves_router path api coll : serves path api coll → router path = Some api.
Proof. by destruct 1. Qed.

Lemma router_serves path api : router path = Some api → ∃ coll, serves path api coll.
Proof.
  unfold router. intros Hr.
  destruct (String.eqb_spec path "/users") as [->|_];
    [|destruct (String.eqb_spec path "/suscriptions") as [->|_]]; simplify_eq;
    eexists; constructor.
Qed.

(** What a dispatcher runs on a mutating method. *)
Lemma serves_run path api coll env r σ :
  serves path api coll → initialised env → mutating (Method r) →
  api env r σ =
    (Header_Set "Access-Control-Allow-Origin" "*";; authorizeRequest env r;;
     mutate coll (Method r) env r) σ.
Proof.
  intros Hs [Hn Hf] Hm.
  destruct Hs; first [progress unfold UsersAPI | progress unfold SuscriptionsAPI];
    rewrite Hn, Hf; unfold mutate;
    destruct Hm as [-> | [-> | ->]]; reflexivity.
Qed.

(** X2.  A request whose method is none of OPTIONS, GET, POST, DELETE and
    PUT is answered 404 with the one line UNSUPPORTED METHOD, the CORS
    origin header and the two headers of [http.Error]; the verifier is not
    asked and the store is not called. *)
Theorem unsupported_method_404 path api env r s :
  router path = Some api → initialised env → supported (Method r) = false →
  api env r (start s) =
    (Return tt,
     mkWorld (http.mkResponse unsupported_headers (Some 404) unsupported_headers
                [http.Line "UNSUPPORTED METHOD"]) s []).
Proof.
  intros Hr [Hn Hf] Hm. unfold supported in Hm.
  repeat (apply orb_false_elim in Hm as [Hm ?]).
  unfold router in Hr.
  destruct (String.eqb path "/users"); [|destruct (String.eqb path "/suscriptions")];
    simplify_eq;
    first [progress unfold UsersAPI | progress unfold SuscriptionsAPI];
    repeat match goal with H : String.eqb _ _ = false |- _ => rewrite H; clear H end;
    rewrite Hn, Hf; vm_compute; reflexivity.
Qed.

Lemma unsupported_method_404_witness :
  UsersAPI Sample.env (mkRequest "PATCH" "" "" None) (start Sample.one_user) =
    (Return tt,
     mkWorld (http.mkResponse unsupported_headers (Some 404) unsupported_headers
                [http.Line "UNSUPPORTED METHOD"]) Sample.one_user []).
Proof.
  apply (unsupported_method_404 "/users" UsersAPI Sample.env
           (mkRequest "PATCH" "" "" None) Sample.one_user).
  - reflexivity.
  - split; reflexivity.
  - reflexivity.
Defined.

(** X3.  When the Firebase app or the Firestore client cannot be obtained,
    every request, whatever its method, token and body, is answered 500
    with no header and no body, and the store is not called. *)
Theorem no_client_500 path api env r s :
  router path = Some api → ¬ initialised env →
  api env r (start s) =
    (Return tt, mkWorld (http.mkResponse ∅ (Some 500) ∅ []) s []).
Proof. intros Hr Hi. by rewrite (api_not_initialised _ _ _ _ _ Hr Hi). Qed.

Lemma no_client_500_witness :
  SuscriptionsAPI Sample.env_no_client Sample.post_valid (start ∅) =
    (Return tt, mkWorld (http.mkResponse ∅ (Some 500) ∅ []) ∅ []).
Proof.
  apply (no_client_500 "/suscriptions" SuscriptionsAPI Sample.env_no_client
           Sample.post_valid ∅).
  - reflexivity.
  - intros [_ H]. discriminate H.
Defined.


(** X5.  When the auth client cannot be obtained, a POST, PUT or DELETE
    ends the process ([log.Fatalf]): no status and no body are written and
    the store is not called. *)
Theorem no_auth_client_exits path api env r s :
  router path = Some api → mutating (Method r) → initialised env →
  Auth_fails env = true →
  let out := api env r (start s) in
  out.1 = Exit ∧
  http.status (resp out.2) = None ∧
  http.body (resp out.2) = [] ∧
  calls out.2 = [] ∧
  db out.2 = s.
Proof.
  intros Hr Hm Hi Ha out. subst out.
  destruct (router_serves _ _ Hr) as [coll Hs].
  rewrite (serves_run _ _ _ _ _ _ Hs Hi Hm).
  cbv [mbind Go_bind Header_Set onWriter]. cbn [start resp db calls].
  unfold authorizeRequest. rewrite Ha. cbv [log_Fatalf]. cbn [fst snd resp db calls].
  repeat apply conj; reflexivity.
Qed.

(** Case analysis on everything a dispatcher inspects: the clients, the
    method, the token, the body and the answers of the store. *)
Ltac inspect :=
  match goal with
  | |- context [String.eqb (Method ?r) ?m] =>
      let E := fresh "Hmethod" in destruct (String.eqb_spec (Method r) m) as [E|E]
  | |- context [if NewApp_fails ?e then _ else _] => destruct (NewApp_fails e) eqn:?
  | |- context [if Firestore_fails ?e then _ else _] => destruct (Firestore_fails e) eqn:?
  | |- context [if Auth_fails ?e then _ else _] => destruct (Auth_fails e) eqn:?
  | |- context [match VerifyIDToken ?e ?t with _ => _ end] =>
      destruct (VerifyIDToken e t) eqn:?
  | |- context [match firestore.where_eq ?a ?b ?c ?d with _ => _ end] =>
      destruct (firestore.where_eq a b c d)
  | |- context [match firestore.get ?i ?c with _ => _ end] =>
      destruct (firestore.get i c) eqn:?
  | |- context [match ?s !! ?c with _ => _ end] => destruct (s !! c) eqn:?
  | |- context [if ?b then _ else _] => is_var b; destruct b
  | |- context [if ?f ?c then _ else _] => is_var f; destruct (f c)
  | |- context [match ?f (Authorization ?r) with _ => _ end] =>
      is_var f; destruct (f (Authorization r))
  | _ => branch
  end.

Ltac unfold_api :=
  cbv [UsersAPI SuscriptionsAPI authorizeRequest getUsers getSuscriptions
       setUsers deleteUsers updateUsers setSuscriptions deleteSuscriptions
       updateSuscriptions].

(** Runs a dispatcher symbolically through all its paths; the store calls
    stay folded. *)
Ltac run_api :=
  unfold_api;
  repeat (go; cbn [start fst snd resp db calls app NewApp_fails Firestore_fails
                   Auth_fails VerifyIDToken unavailable];
          first [rewrite iterate_run | inspect]);
  go; cbn [start fst snd resp db calls app].

(** The same, with the store operations unfolded to the maps they build. *)
Ltac run_api_store :=
  unfold_api;
  repeat (go;
          cbv [firestore.create firestore.set firestore.delete firestore.toProtoDocument
               option_bind];
          cbn [start fst snd resp db calls app NewApp_fails Firestore_fails
               Auth_fails VerifyIDToken unavailable];
          first [rewrite iterate_run | inspect]);
  go; cbn [start fst snd resp db calls app].

Ltac routes Hr :=
  unfold router in Hr;
  repeat match type of Hr with
         | context [String.eqb ?a ?b] => destruct (String.eqb a b)
         end; simplify_eq.

(** X6.  A request makes at most one store call, whatever happens: no
    call is ever repeated. *)
Theorem at_most_one_store_call path api env r s :
  router path = Some api →
  (length (calls (api env r (start s)).2) ≤ 1)%nat.
Proof.
  intros Hr. routes Hr; run_api; cbn [length app]; lia.
Qed.

(** X7.  A request whose method is not POST, PUT or DELETE leaves the
    store as it is and makes no create, set or delete call, in every
    environment. *)
Theorem other_methods_never_mutate path api env r s :
  router path = Some api → ¬ mutating (Method r) →
  let out := api env r (start s) in
  db out.2 = s ∧ Forall (λ c, firestore.mutation c = false) (calls out.2).
Proof.
  intros Hr Hm out. subst out. unfold mutating in Hm.
  routes Hr; run_api;
    try (exfalso; apply Hm; eauto; fail);
    (split; [reflexivity | repeat constructor]).
Qed.

Lemma at_most_one_store_call_witness :
  (length (calls (UsersAPI Sample.env Sample.post_valid (start ∅)).2) ≤ 1)%nat.
Proof.
  apply (at_most_one_store_call "/users" UsersAPI Sample.env Sample.post_valid ∅).
  reflexivity.
Defined.

Lemma other_methods_never_mutate_witness :
  let out := UsersAPI Sample.env Sample.get_u1 (start Sample.one_user) in
  db out.2 = Sample.one_user ∧ Forall (λ c, firestore.mutation c = false) (calls out.2).
Proof.
  apply (other_methods_never_mutate "/users" UsersAPI Sample.env Sample.get_u1
           Sample.one_user).
  - reflexivity.
  - intros [H | [H | H]]; discriminate H.
Defined.

(** X8.  Whatever a request to /users does, it leaves every collection
    other than "Users" as it was; a request to /suscriptions leaves every
    collection other than "Suscriptions" as it was. *)
Theorem writes_stay_in_own_collection path api coll env r s coll' :
  serves path api coll → coll' ≠ coll →
  firestore.collection (db (api env r (start s)).2) coll' = firestore.collection s coll'.
Proof.
  intros Hs Hne. destruct Hs; run_api_store;
    try reflexivity; by rewrite collection_insert_ne.
Qed.

Lemma writes_stay_in_own_collection_witness :
  firestore.collection (db (UsersAPI Sample.env Sample.post_valid (start Sample.one_user)).2)
    "user" = firestore.collection Sample.one_user "user".
Proof.
  apply (writes_stay_in_own_collection "/users" UsersAPI "Users" Sample.env
           Sample.post_valid Sample.one_user "user").
  - constructor.
  - discriminate.
Defined.

(** X9.  What the Identity Verifier answers has no effect on the store:
    in two environments that differ in the verifier only, a request makes
    the same store calls and leaves the same store. *)
Theorem verifier_has_no_effect_on_store path api env env' r s :
  router path = Some api → same_but_verifier env env' →
  let out := api env r (start s) in
  let out' := api env' r (start s) in
  db out.2 = db out'.2 ∧ calls out.2 = calls out'.2.
Proof.
  intros Hr Hsame out out'. subst out out'.
  destruct env as [n f a v un now tz], env' as [n' f' a' v' un' now' tz'].
  destruct Hsame as (Hn & Hf & Ha & Hu & _ & _).
  cbn [NewApp_fails Firestore_fails Auth_fails unavailable] in Hn, Hf, Ha, Hu. subst.
  routes Hr; run_api; split; reflexivity.
Qed.

Lemma verifier_has_no_effect_on_store_witness :
  let env' := mkEnv false false false (λ _, None) (unavailable Sample.env)
                (Now Sample.env) true in
  let out := UsersAPI Sample.env Sample.post_valid (start ∅) in
  let out' := UsersAPI env' Sample.post_valid (start ∅) in
  db out.2 = db out'.2 ∧ calls out.2 = calls out'.2.
Proof.
  intros env'.
  apply (verifier_has_no_effect_on_store "/users" UsersAPI Sample.env env'
           Sample.post_valid ∅).
  - reflexivity.
  - repeat split; reflexivity.
Defined.

(** X10.  Once the clients are obtained, every response on which a header
    is written carries Access-Control-Allow-Origin: *, on every path
    through the dispatcher: success, 400, 403, 404 and 500 alike. *)
Theorem every_answer_allows_any_origin path api env r s code :
  router path = Some api → initialised env →
  http.status (resp (api env r (start s)).2) = Some code →
  http.sent (resp (api env r (start s)).2) !! "Access-Control-Allow-Origin" = Some ["*"].
Proof.
  intros Hr [Hn Hf]. routes Hr; run_api; try congruence;
    intros H; vm_compute in H |- *; first [discriminate H | reflexivity].
Qed.

Lemma every_answer_allows_any_origin_witness :
  http.sent (resp (UsersAPI Sample.env Sample.post_no_token (start ∅)).2)
    !! "Access-Control-Allow-Origin" = Some ["*"].
Proof.
  apply (every_answer_allows_any_origin "/users" UsersAPI Sample.env
           Sample.post_no_token ∅ 403).
  - reflexivity.
  - split; reflexivity.
  - vm_compute; reflexivity.
Defined.

(** ** The store after a successful create, update and delete *)


Lemma get_notin id (c : firestore.Collection) : id ∉ c.*1 → firestore.get id c = None.
Proof.
  induction c as [|[k e] c IH]; cbn; [done|]. intros Hin.
  destruct (String.eqb_spec id k) as [->|Hk].
  - destruct Hin. by left.
  - apply IH. intros H. apply Hin. by right.
Qed.

Lemma get_remove id (c : firestore.Collection) :
  NoDup c.*1 → firestore.get id (firestore.remove id c) = None.
Proof.
  induction c as [|[k e] c IH]; cbn; [done|]. intros [Hk Hc]%NoDup_cons.
  destruct (String.eqb_spec id k) as [->|Hne]; cbn.
  - by apply get_notin.
  - destruct (String.eqb_spec id k); [done | by apply IH].
Qed.

Lemma get_remove_ne id id' (c : firestore.Collection) :
  id' ≠ id → firestore.get id' (firestore.remove id c) = firestore.get id' c.
Proof.
  intros Hne. induction c as [|[k e] c IH]; cbn; [done|].
  destruct (String.eqb_spec id k) as [->|Hk]; cbn.
  - by destruct (String.eqb_spec id' k).
  - destruct (String.eqb_spec id' k); [done | apply IH].
Qed.

(** What a dispatcher does on a mutating request with an accepted token:
    it sets the CORS header and runs the handler. *)
Lemma accepted_run path api coll env r s :
  serves path api coll → verifier_accepts env r → mutating (Method r) →
  api env r (start s) =
    mutate coll (Method r) env r
      (mkWorld (http.Header_Set "Access-Control-Allow-Origin" "*" http.fresh) s []).
Proof.
  intros Hs (Hi & Ha & Hv) Hm. rewrite (serves_run _ _ _ _ _ _ Hs Hi Hm).
  erewrite bind_Return by reflexivity.
  erewrite bind_Return by (by apply authorizeRequest_accepted).
  reflexivity.
Qed.

Lemma status_after_cors code :
  http.status (http.WriteHeader code
                 (http.Header_Set "Access-Control-Allow-Origin" "*" http.fresh)) = Some code.
Proof. reflexivity. Qed.





(** X14.  A DELETE with an accepted token and a decodable body, on a
    store that takes the call and holds each id once, is answered 200
    whether or not the document existed; afterwards there is no document
    under that id, and the documents under other ids are as before. *)
Theorem delete_removes_document path api coll env r s b d :
  serves path api coll → verifier_accepts env r →
  Method r = http.MethodDelete → Body r = Some b → Unmarshal.Delete b = Some d →
  unavailable env (firestore.Delete coll (delete_ID d)) = false →
  NoDup (firestore.collection s coll).*1 →
  let out := api env r (start s) in
  out.1 = Return tt ∧
  http.status (resp out.2) = Some 200 ∧
  http.body (resp out.2) = [] ∧
  firestore.get (delete_ID d) (firestore.collection (db out.2) coll) = None ∧
  ∀ id, id ≠ delete_ID d →
    firestore.get id (firestore.collection (db out.2) coll)
      = firestore.get id (firestore.collection s coll).
Proof.
  intros Hs Hacc Hm Hb Hd Hav Hnd out. subst out.
  rewrite (accepted_run _ _ _ _ _ _ Hs Hacc) by (rewrite Hm; right; by right).
  rewrite Hm. change (mutate coll http.MethodDelete) with (deleteIn coll).
  unfold deleteIn. rewrite Hb, Hd. go. rewrite Hav. cbn [fst snd resp db calls].
  split; [done|]. split; [apply status_after_cors|]. split; [reflexivity|].
  unfold firestore.delete. unfold firestore.collection in *.
  destruct (s !! coll) as [c|] eqn:Hc; cbn [default] in *.
  - rewrite lookup_insert_eq. cbn [default]. split; [by apply get_remove|].
    intros id Hid. by apply get_remove_ne.
  - rewrite Hc. done.
Qed.



Lemma delete_removes_document_witness :
  let b := json.Text (json.JObject [("id", json.JString "u1")]) in
  let r := mkRequest "DELETE" "Bearer-ana" "" (Some b) in
  let s : firestore.Store := {[ "Users" := [("u1", firestore.fields Sample.u1)] ]} in
  let out := UsersAPI Sample.env r (start s) in
  out.1 = Return tt ∧
  http.status (resp out.2) = Some 200 ∧
  http.body (resp out.2) = [] ∧
  firestore.get (delete_ID (mkDelete "u1")) (firestore.collection (db out.2) "Users") = None ∧
  ∀ id, id ≠ delete_ID (mkDelete "u1") →
    firestore.get id (firestore.collection (db out.2) "Users")
      = firestore.get id (firestore.collection s "Users").
Proof.
  intros b r s.
  apply (delete_removes_document "/users" UsersAPI "Users" Sample.env r s b (mkDelete "u1")).
  - constructor.
  - repeat split; try reflexivity. by eexists.
  - reflexivity.
  - reflexivity.
  - reflexivity.
  - reflexivity.
  - unfold firestore.collection, s. rewrite lookup_singleton_eq. cbn.
    apply NoDup_singleton.
Defined.


Lemma no_auth_client_exits_witness :
  let env := mkEnv false false true (VerifyIDToken Sample.env) (λ _, false) 0 true in
  let out := UsersAPI env Sample.post_valid (start ∅) in
  out.1 = Exit ∧
  http.status (resp out.2) = None ∧
  http.body (resp out.2) = [] ∧
  calls out.2 = [] ∧
  db out.2 = ∅.
Proof.
  intros env.
  apply (no_auth_client_exits "/users" UsersAPI env Sample.post_valid ∅).
  - reflexivity.
  - left. reflexivity.
  - split; reflexivity.
  - reflexivity.
Defined.



(** ** Decoding the body *)

Lemma memberUsers_keeps_ID u key j u' :
  json.equalFold "ID" key = false → Unmarshal.memberUsers u key j = Some u' → ID u' = ID u.
Proof.
  intros Hk. destruct u as [id name price type year image description slug].
  unfold Unmarshal.memberUsers. rewrite Hk.
  repeat match goal with
         | |- context [if json.equalFold ?f key then _ else _] =>
             destruct (json.equalFold f key)
         end;
    try (intros; by simplify_eq);
    first [ destruct (json.intoString _ j) | destruct (json.intoFloat64 _ j) ];
    cbn; intros; by simplify_eq.
Qed.

Lemma membersUsers_keeps_ID ms u u' :
  Forall (λ m, json.equalFold "ID" m.1 = false) ms →
  Unmarshal.membersUsers u ms = Some u' → ID u' = ID u.
Proof.
  revert u. induction ms as [|[key j] ms IH]; intros u Hall; cbn.
  - intros; by simplify_eq.
  - apply Forall_cons in Hall as [Hk Hall]. cbn [fst] in Hk.
    destruct (Unmarshal.memberUsers u key j) as [u1|] eqn:Hu1; cbn; [|done].
    intros H. rewrite (IH _ Hall H). exact (memberUsers_keeps_ID _ _ _ _ Hk Hu1).
Qed.

(** X16.  The id of a profile comes from a member named ID (in any
    letter case) and from nowhere else: a body that is a JSON object with
    no such member decodes, when it decodes, to the empty id.  The struct
    has no json tag, so "uid", the name the field has in the store, is not
    read. *)
Theorem ID_only_from_member_ID ms u :
  Forall (λ m, json.equalFold "ID" m.1 = false) ms →
  Unmarshal.Users (json.Text (json.JObject ms)) = Some u → ID u = "".
Proof. intros Hall Hu. apply (membersUsers_keeps_ID ms zeroUsersFields u Hall Hu). Qed.

Lemma ID_only_from_member_ID_witness :
  let ms := [("uid", json.JString "u1"); ("displayName", json.JString "Ana");
             ("price", json.JNumber (mkNumber 0 0)); ("type", json.JString "t");
             ("year", json.JString "2024"); ("image", json.JString "");
             ("description", json.JString ""); ("slug", json.JString "ana")] in
  ID (mkUsersFields "" "" (mkNumber 0 0) "t" "2024" "" "" "ana") = "".
Proof.
  intros ms.
  apply (ID_only_from_member_ID ms).
  - repeat constructor.
  - reflexivity.
Defined.

(** ** The times of the subscription record *)



(** X18.  A POST whose body cannot be read panics in the create handler
    once the clients are obtained, also when the token was accepted: the
    handler returns nothing, and the store is not called. *)
Theorem unreadable_POST_panics path api env r s :
  router path = Some api → initialised env → Auth_fails env = false →
  Method r = http.MethodPost → Body r = None →
  let out := api env r (start s) in
  out.1 = Panic ∧ calls out.2 = [] ∧ db out.2 = s.
Proof.
  intros Hr Hi Ha Hm Hb out. subst out.
  destruct (router_serves _ _ Hr) as [coll Hs].
  rewrite (serves_run _ _ _ _ _ _ Hs Hi) by (rewrite Hm; by left).
  rewrite Hm. change (mutate coll http.MethodPost) with (createIn coll).
  cbv [mbind Go_bind Header_Set onWriter]. cbn [start resp db calls].
  unfold authorizeRequest, createIn. rewrite Ha, Hb.
  by destruct (VerifyIDToken env (Authorization r)).
Qed.

Lemma unreadable_POST_panics_witness :
  let out := SuscriptionsAPI Sample.env Sample.post_unreadable (start Sample.one_user) in
  out.1 = Panic ∧ calls out.2 = [] ∧ db out.2 = Sample.one_user.
Proof.
  apply (unreadable_POST_panics "/suscriptions" SuscriptionsAPI Sample.env
           Sample.post_unreadable Sample.one_user).
  - reflexivity.
  - split; reflexivity.
  - reflexivity.
  - reflexivity.
  - reflexivity.
Defined.
